(** * background.js: the daily-noon alarm and the mobile User-Agent rule

    A shallow embedding of [src/background.js] and a verification of its
    specification.  The script is glue over host facilities, so the
    development has three layers:

    - [ESDate]: the arithmetic of ECMAScript time values (ECMA-262,
      section 21.4.1, "Date Objects") that the [Date] methods called by
      [getNextNoon] are defined by;
    - [Chrome]: the stores behind the extension APIs the script calls
      (alarms, dynamic request rules, tabs) and a log of the calls;
    - [Background]: the script itself, statement by statement. *)

From Stdlib Require Import ZArith List String Ascii Bool Lia.
Import ListNotations.

Local Open Scope Z_scope.

(* ================================================================== *)
(** * ECMAScript time values                                            *)
(* ================================================================== *)

Module ESDate.

(** A time value is a number of milliseconds since the epoch.  Every
    quantity below is an integer far inside the range a double represents
    exactly, so time values are integers here and [NaN] is [None]. *)
Definition Num : Type := option Z.

Definition msPerSecond : Z := 1000.
Definition msPerMinute : Z := 60000.
Definition msPerHour : Z := 3600000.
Definition msPerDay : Z := 86400000.

(** [Z.div] and [Z.modulo] round towards minus infinity for a positive
    divisor, as [floor] and [modulo] of the standard do. *)
Definition Day (t : Z) : Z := t / msPerDay.
Definition TimeWithinDay (t : Z) : Z := t mod msPerDay.

Definition DaysInYear (y : Z) : Z :=
  if negb (y mod 4 =? 0) then 365
  else if negb (y mod 100 =? 0) then 366
  else if negb (y mod 400 =? 0) then 365
  else 366.

Definition DayFromYear (y : Z) : Z :=
  365 * (y - 1970) + (y - 1969) / 4 - (y - 1901) / 100 + (y - 1601) / 400.

Definition TimeFromYear (y : Z) : Z := msPerDay * DayFromYear y.

(** The standard defines [YearFromTime t] as the largest [y] with
    [TimeFromYear y <= t].  It is computed from the mean length of a
    Gregorian year (146097 days in 400 years) and corrected by at most one
    year; [YearFromTime_spec] below shows that this is the standard's year. *)
Definition YearFromTime (t : Z) : Z :=
  let d := Day t in
  let y := 1970 + (400 * d) / 146097 in
  if DayFromYear (y + 1) <=? d then y + 1
  else if d <? DayFromYear y then y - 1
  else y.

Definition InLeapYear (t : Z) : Z :=
  if DaysInYear (YearFromTime t) =? 366 then 1 else 0.

Definition DayWithinYear (t : Z) : Z := Day t - DayFromYear (YearFromTime t).

Definition MonthFromTime (t : Z) : Z :=
  let d := DayWithinYear t in
  let leap := InLeapYear t in
  if d <? 31 then 0
  else if d <? 59 + leap then 1
  else if d <? 90 + leap then 2
  else if d <? 120 + leap then 3
  else if d <? 151 + leap then 4
  else if d <? 181 + leap then 5
  else if d <? 212 + leap then 6
  else if d <? 243 + leap then 7
  else if d <? 273 + leap then 8
  else if d <? 304 + leap then 9
  else if d <? 334 + leap then 10
  else 11.

Definition DateFromTime (t : Z) : Z :=
  let d := DayWithinYear t in
  let leap := InLeapYear t in
  match MonthFromTime t with
  | 0 => d + 1
  | 1 => d - 30
  | 2 => d - 58 - leap
  | 3 => d - 89 - leap
  | 4 => d - 119 - leap
  | 5 => d - 150 - leap
  | 6 => d - 180 - leap
  | 7 => d - 211 - leap
  | 8 => d - 242 - leap
  | 9 => d - 272 - leap
  | 10 => d - 303 - leap
  | _ => d - 333 - leap
  end.

Definition HourFromTime (t : Z) : Z := (t / msPerHour) mod 24.
Definition MinFromTime (t : Z) : Z := (t / msPerMinute) mod 60.
Definition SecFromTime (t : Z) : Z := (t / msPerSecond) mod 60.
Definition msFromTime (t : Z) : Z := t mod msPerSecond.

Definition MakeTime (hour min sec ms : Z) : Z :=
  hour * msPerHour + min * msPerMinute + sec * msPerSecond + ms.

(** Number of days before the first day of month [mn] (0 to 11) in a year
    with [leap] (0 or 1) extra days: the bounds of [MonthFromTime]. *)
Definition DaysBeforeMonth (mn leap : Z) : Z :=
  match mn with
  | 0 => 0
  | 1 => 31
  | 2 => 59 + leap
  | 3 => 90 + leap
  | 4 => 120 + leap
  | 5 => 151 + leap
  | 6 => 181 + leap
  | 7 => 212 + leap
  | 8 => 243 + leap
  | 9 => 273 + leap
  | 10 => 304 + leap
  | _ => 334 + leap
  end.

(** [MakeDay year month date]: the standard finds the time value [t] that
    is the first day of month [month mod 12] of year
    [year + floor (month / 12)] and returns [Day t + date - 1];
    [MakeDay_first] below shows that the day computed here is that one. *)
Definition MakeDay (year month date : Z) : Z :=
  let ym := year + month / 12 in
  let mn := month mod 12 in
  let leap := if DaysInYear ym =? 366 then 1 else 0 in
  DayFromYear ym + DaysBeforeMonth mn leap + date - 1.

Definition MakeDate (day time : Z) : Z := day * msPerDay + time.

Definition maxTime : Z := 8640000000000000.

Definition TimeClip (time : Z) : Num :=
  if Z.abs time >? maxTime then None else Some time.

(** ** The local time zone

    [offsetAt t] is the offset from UTC, in milliseconds, in force at the
    instant [t]; [localOffset l] is the offset the standard's [UTC]
    resolves the local time value [l] with (the earliest instant that
    reads [l] when a clock change repeats it, the offset before the change
    when the change skips it). *)
Record TimeZone : Type := mkZone {
  offsetAt : Z -> Z;
  localOffset : Z -> Z
}.

Definition LocalTime (tz : TimeZone) (t : Z) : Z := t + offsetAt tz t.
Definition UTC (tz : TimeZone) (t : Z) : Z := t - localOffset tz t.

(** ** Date objects

    The state of a [Date] object is its time value, [NaN] for an invalid
    date.  A setter returns the new time value of the object. *)
Definition Date : Type := Num.

Definition getTime (d : Date) : Num := d.

Definition setHours (tz : TimeZone) (d : Date) (hour min sec ms : Z) : Date :=
  match d with
  | None => None
  | Some t =>
      let t := LocalTime tz t in
      let date := MakeDate (Day t) (MakeTime hour min sec ms) in
      TimeClip (UTC tz date)
  end.

Definition getDate (tz : TimeZone) (d : Date) : Num :=
  match d with
  | None => None
  | Some t => Some (DateFromTime (LocalTime tz t))
  end.

Definition setDate (tz : TimeZone) (d : Date) (date : Num) : Date :=
  match d, date with
  | Some t, Some dt =>
      let t := LocalTime tz t in
      let newDate :=
        MakeDate (MakeDay (YearFromTime t) (MonthFromTime t) dt) (TimeWithinDay t) in
      TimeClip (UTC tz newDate)
  | _, _ => None
  end.

(** [a <= b] on two [Date] objects compares their time values; a
    comparison with [NaN] is false. *)
Definition date_le (a b : Date) : bool :=
  match a, b with
  | Some x, Some y => x <=? y
  | _, _ => false
  end.

(** [x + n] on numbers: [NaN + n] is [NaN]. *)
Definition num_add (x : Num) (n : Z) : Num :=
  match x with
  | Some v => Some (v + n)
  | None => None
  end.

End ESDate.

Import ESDate.

(* ================================================================== *)
(** * Strings                                                           *)
(* ================================================================== *)

(** [contains sub s]: [sub] occurs in [s] as a contiguous substring. *)
Fixpoint contains (sub s : string) : bool :=
  String.prefix sub s
  || match s with
     | EmptyString => false
     | String _ s' => contains sub s'
     end.

(** [split_on c s]: the pieces of [s] between the occurrences of [c]. *)
Fixpoint split_on (c : ascii) (s : string) : list string :=
  match s with
  | EmptyString => [EmptyString]
  | String a s' =>
      if Ascii.eqb a c then EmptyString :: split_on c s'
      else match split_on c s' with
           | [] => [String a EmptyString]
           | p :: ps => String a p :: ps
           end
  end.

(** [after_first c s]: what follows the first [c] in [s], if there is one. *)
Fixpoint after_first (c : ascii) (s : string) : option string :=
  match s with
  | EmptyString => None
  | String a s' => if Ascii.eqb a c then Some s' else after_first c s'
  end.

(** The [key=value] pairs of the query component of a URL: what follows
    the first [?], split at every [&]. *)
Definition query_params (url : string) : list string :=
  match after_first "?"%char url with
  | Some q => split_on "&"%char q
  | None => []
  end.

(* ================================================================== *)
(** * The host: extension APIs                                          *)
(* ================================================================== *)

Module Chrome.

(** ** Data of the declarative request-rule API *)

Inductive ResourceType : Type :=
  | main_frame | sub_frame | stylesheet | script | image | font | object
  | xmlhttprequest | ping | csp_report | media | websocket | webtransport
  | webbundle | other.

Definition ResourceType_eqb (a b : ResourceType) : bool :=
  match a, b with
  | main_frame, main_frame | sub_frame, sub_frame | stylesheet, stylesheet
  | script, script | image, image | font, font | object, object
  | xmlhttprequest, xmlhttprequest | ping, ping | csp_report, csp_report
  | media, media | websocket, websocket | webtransport, webtransport
  | webbundle, webbundle | other, other => true
  | _, _ => false
  end.

(** The ["operation"] of a header modification: ["append"], ["set"],
    ["remove"]. *)
Inductive HeaderOperation : Type := op_append | op_set | op_remove.

Record ModifyHeaderInfo : Type := mkModifyHeaderInfo {
  header : string;
  operation : HeaderOperation;
  value : string
}.

(** The ["type"] of a rule action. *)
Inductive RuleActionType : Type :=
  | block | redirect | allow | upgradeScheme | modifyHeaders | allowAllRequests.

Record RuleAction : Type := mkRuleAction {
  action_type : RuleActionType;
  requestHeaders : list ModifyHeaderInfo
}.

Record RuleCondition : Type := mkRuleCondition {
  urlFilter : string;
  resourceTypes : list ResourceType
}.

Record Rule : Type := mkRule {
  id : Z;
  priority : Z;
  action : RuleAction;
  condition : RuleCondition
}.

Record UpdateRuleOptions : Type := mkUpdateRuleOptions {
  removeRuleIds : list Z;
  addRules : list Rule
}.

(** ** Data of the alarm and tab APIs *)

Record AlarmCreateInfo : Type := mkAlarmCreateInfo {
  when : Num;
  periodInMinutes : Z
}.

Record Alarm : Type := mkAlarm {
  name : string;
  scheduledTime : Num;
  alarmPeriod : Z
}.

Record CreateProperties : Type := mkCreateProperties {
  url : string
}.

(** ** The state of the host *)

(** A call of an extension API, as the host receives it. *)
Inductive Call : Type :=
  | AlarmsCreate (n : string) (info : AlarmCreateInfo)
  | UpdateDynamicRules (opts : UpdateRuleOptions)
  | TabsCreate (props : CreateProperties).

(** The host as the script sees it: the system clock and the local time
    zone it reads, the three stores it writes, and the calls it made.
    One run of a listener is taken to happen at one reading of the clock
    (milliseconds since the epoch). *)
Record World : Type := mkWorld {
  clock : Z;
  zone : TimeZone;
  alarms : list Alarm;
  dynamicRules : list Rule;
  tabs : list string;
  calls : list Call
}.

(** Code that runs against the host: a state monad over [World]. *)
Definition Host (A : Type) : Type := World -> A * World.

Definition ret {A : Type} (a : A) : Host A := fun w => (a, w).

Definition bind {A B : Type} (m : Host A) (k : A -> Host B) : Host B :=
  fun w => let (a, w') := m w in k a w'.

Definition evalHost {A : Type} (m : Host A) (w : World) : A := fst (m w).
Definition execHost {A : Type} (m : Host A) (w : World) : World := snd (m w).

Definition logCall (c : Call) (w : World) : World :=
  mkWorld (clock w) (zone w) (alarms w) (dynamicRules w) (tabs w) (calls w ++ [c]).

(** ** [Date] against the host's clock and time zone *)

(** [new Date()]: a date object holding the current time.  The clock of
    a [World] does not advance: the two dates [getNextNoon] creates hold
    the same time value. *)
Definition newDate : Host Date := fun w => (Some (clock w), w).

Definition Date_setHours (d : Date) (hour min sec ms : Z) : Host Date :=
  fun w => (setHours (zone w) d hour min sec ms, w).

Definition Date_getDate (d : Date) : Host Num :=
  fun w => (getDate (zone w) d, w).

Definition Date_setDate (d : Date) (date : Num) : Host Date :=
  fun w => (setDate (zone w) d date, w).

(** ** [chrome.alarms.create] *)

(** Modelled from the spec: the host's alarm store is not part of the
    repository.  [create(name, {when, periodInMinutes})] registers a
    repeating timer under [name]; as the platform documents it, an alarm
    already registered under that name is replaced. *)
Definition registerAlarm (n : string) (info : AlarmCreateInfo)
    (l : list Alarm) : list Alarm :=
  filter (fun a => negb (String.eqb (name a) n)) l
  ++ [mkAlarm n (when info) (periodInMinutes info)].

Definition alarms_create (n : string) (info : AlarmCreateInfo) : Host unit :=
  fun w =>
    let w := logCall (AlarmsCreate n info) w in
    (tt, mkWorld (clock w) (zone w) (registerAlarm n info (alarms w))
           (dynamicRules w) (tabs w) (calls w)).

(** ** [chrome.declarativeNetRequest.updateDynamicRules] *)

Definition removesRule (opts : UpdateRuleOptions) (r : Rule) : bool :=
  existsb (Z.eqb (id r)) (removeRuleIds opts).

Fixpoint distinct (l : list Z) : bool :=
  match l with
  | [] => true
  | x :: l' => negb (existsb (Z.eqb x) l') && distinct l'
  end.

(** Modelled from the spec: the host's rule store is not part of the
    repository.  [updateDynamicRules({removeRuleIds, addRules})]
    atomically replaces rules by integer identifier: the rules whose
    identifier is listed are removed first, then the new rules are added.
    As the platform documents it, the update is refused as a whole
    ([None]) when an added rule would share its identifier with a rule
    that stays or with another added rule. *)
Definition updateRules (opts : UpdateRuleOptions) (rs : list Rule)
    : option (list Rule) :=
  let kept := filter (fun r => negb (removesRule opts r)) rs in
  let added := addRules opts in
  if existsb (fun r => existsb (Z.eqb (id r)) (map id kept)) added
     || negb (distinct (map id added))
  then None
  else Some (kept ++ added).

(** The script does not look at the outcome of the update: a refused
    update leaves the rules as they were. *)
Definition declarativeNetRequest_updateDynamicRules
    (opts : UpdateRuleOptions) : Host unit :=
  fun w =>
    let w := logCall (UpdateDynamicRules opts) w in
    match updateRules opts (dynamicRules w) with
    | Some rs => (tt, mkWorld (clock w) (zone w) (alarms w) rs (tabs w) (calls w))
    | None => (tt, w)
    end.

(** ** [chrome.tabs.create] *)

(** Modelled from the spec: the host's tabs are not part of the
    repository.  [create({url})] opens a new page at the given URL. *)
Definition tabs_create (props : CreateProperties) : Host unit :=
  fun w =>
    let w := logCall (TabsCreate props) w in
    (tt, mkWorld (clock w) (zone w) (alarms w) (dynamicRules w)
           (tabs w ++ [url props]) (calls w)).

(** ** Requests and the evaluation of a rule *)

Record Request : Type := mkRequest {
  requestUrl : string;
  requestType : ResourceType;
  headers : list (string * string)
}.

(** Modelled from the spec: the host's matching of requests is not part
    of the repository.  A condition is a URL substring filter and a set
    of resource types: it holds of the requests whose URL contains
    [urlFilter] and whose resource type is one of [resourceTypes]. *)
Definition conditionHolds (c : RuleCondition) (q : Request) : bool :=
  contains (urlFilter c) (requestUrl q)
  && existsb (ResourceType_eqb (requestType q)) (resourceTypes c).

Definition ruleMatches (r : Rule) (q : Request) : bool :=
  conditionHolds (condition r) q.

Definition dropHeader (h : string) (hs : list (string * string))
    : list (string * string) :=
  filter (fun p => negb (String.eqb (fst p) h)) hs.

Fixpoint lookupHeader (h : string) (hs : list (string * string))
    : option string :=
  match hs with
  | [] => None
  | (k, v) :: hs' => if String.eqb k h then Some v else lookupHeader h hs'
  end.

(** Modelled from the spec: a header action sets or modifies a named
    header to a literal value.  ["set"] replaces the header's value,
    ["append"] adds a value, ["remove"] deletes the header. *)
Definition modifyHeader (m : ModifyHeaderInfo) (hs : list (string * string))
    : list (string * string) :=
  match operation m with
  | op_set => (header m, value m) :: dropHeader (header m) hs
  | op_append => hs ++ [(header m, value m)]
  | op_remove => dropHeader (header m) hs
  end.

(** The request as the network layer sends it when [r] is the only rule:
    a matching request has its headers modified, any other is untouched. *)
Definition applyRule (r : Rule) (q : Request) : Request :=
  if ruleMatches r q
  then match action_type (action r) with
       | modifyHeaders =>
           mkRequest (requestUrl q) (requestType q)
             (fold_left (fun hs m => modifyHeader m hs)
                (requestHeaders (action r)) (headers q))
       | _ => q
       end
  else q.

End Chrome.

Import Chrome.

Declare Scope host_scope.
Delimit Scope host_scope with host.
Notation "x <- m ;; k" := (bind m (fun x => k))
  (at level 61, m at next level, right associativity) : host_scope.
Notation "m ;; k" := (bind m (fun _ => k))
  (at level 61, right associativity) : host_scope.

(* ================================================================== *)
(** * The script: [src/background.js]                                   *)
(* ================================================================== *)

Module Background.

Local Open Scope host_scope.

Definition RULE_ID : Z := 1.

Definition MOBILE_USER_AGENT : string :=
  "Mozilla/5.0 (iPhone; CPU iPhone OS 16_0 like Mac OS X) AppleWebKit/605.1.15 (KHTML, like Gecko) Version/16.0 Mobile/15E148 Safari/604.1"%string.

(** [function getNextNoon()] *)
Definition getNextNoon : Host Num :=
  now <- newDate ;;
  next <- newDate ;;
  next <- Date_setHours next 12 0 0 0 ;;
  next <- (if date_le next now
           then date <- Date_getDate next ;;
                Date_setDate next (num_add date 1)
           else ret next) ;;
  ret (getTime next).

(** [function setupDailyAlarm()] *)
Definition setupDailyAlarm : Host unit :=
  noon <- getNextNoon ;;
  alarms_create "dailyCheck"%string
    {| when := noon; periodInMinutes := 1440 |}.

(** The rule object of the [addRules] array. *)
Definition headerRule : Rule :=
  {| id := RULE_ID;
     priority := 1;
     action :=
       {| action_type := modifyHeaders;
          requestHeaders :=
            [ {| header := "User-Agent"%string;
                 operation := op_set;
                 value := MOBILE_USER_AGENT |} ] |};
     condition :=
       {| urlFilter := "m.search.naver.com"%string;
          resourceTypes := [xmlhttprequest; sub_frame; main_frame] |} |}.

(** The argument of [updateDynamicRules]. *)
Definition ruleUpdate : UpdateRuleOptions :=
  {| removeRuleIds := [RULE_ID]; addRules := [headerRule] |}.

(** The listener of [chrome.runtime.onInstalled]. *)
Definition onInstalled : Host unit :=
  setupDailyAlarm ;;
  declarativeNetRequest_updateDynamicRules ruleUpdate.

(** The listener of [chrome.alarms.onAlarm]. *)
Definition onAlarm (alarm : Alarm) : Host unit :=
  if String.eqb (name alarm) "dailyCheck"%string
  then tabs_create {| url := "dashboard.html?auto=true"%string |}
  else ret tt.

End Background.

Import Background.

(* ================================================================== *)
(** * Vocabulary of the specification                                   *)
(* ================================================================== *)

(** 12:00:00.000 as a time within the day. *)
Definition noonTime : Z := MakeTime 12 0 0 0.

(** The timestamp of local noon of the local day [d]: the instant the
    zone resolves the local time value "day [d], 12:00:00.000" to. *)
Definition localNoon (tz : TimeZone) (d : Z) : Z := UTC tz (MakeDate d noonTime).

(** The local day the instant [t] falls on, and the reading of the local
    wall clock at [t] as a time within that day. *)
Definition localDay (tz : TimeZone) (t : Z) : Z := Day (LocalTime tz t).
Definition wallClock (tz : TimeZone) (t : Z) : Z := TimeWithinDay (LocalTime tz t).

(** The local clock reads 12:00:00.000 at the instant [r]; and [r] is,
    besides, on the local day [d]. *)
Definition ReadsNoon (tz : TimeZone) (r : Z) : Prop :=
  HourFromTime (LocalTime tz r) = 12
  /\ MinFromTime (LocalTime tz r) = 0
  /\ SecFromTime (LocalTime tz r) = 0
  /\ msFromTime (LocalTime tz r) = 0.

Definition IsLocalNoonOf (tz : TimeZone) (d r : Z) : Prop :=
  localDay tz r = d /\ ReadsNoon tz r.

(** The value of [getNextNoon] as a function of what it reads: the clock
    reading [t] and the zone ([getNextNoon_eval]). *)
Definition nextNoonAt (tz : TimeZone) (t : Z) : Num :=
  let next := setHours tz (Some t) 12 0 0 0 in
  if date_le next (Some t)
  then setDate tz next (num_add (getDate tz next) 1)
  else next.

(** What the development asks of a time zone.  Offsets stay within a day
    of UTC; no clock change skips a local noon ([noon_exists]); and the
    local clock reads a time before the noon of a day exactly at the
    instants before that noon ([noon_order]): clock changes neither
    straddle a noon nor reach back across one.  Zones with a fixed offset
    and zones that change their clocks by an hour at night are of this
    kind ([fixedZone_regular], [newYork2026_regular]). *)
Record NoonRegular (tz : TimeZone) : Prop := mkNoonRegular {
  offset_bound : forall t, - msPerDay <= offsetAt tz t <= msPerDay;
  noon_exists : forall d, LocalTime tz (localNoon tz d) = MakeDate d noonTime;
  noon_order : forall t d, LocalTime tz t < MakeDate d noonTime <-> t < localNoon tz d
}.

(** A clock reading with the noons of the surrounding days inside the
    range of time values (which ends in the year 275760). *)
Definition ClockInRange (t : Z) : Prop := Z.abs t <= maxTime - 4 * msPerDay.

(** A zone with the same offset at all times, such as Asia/Seoul. *)
Definition fixedZone (k : Z) : TimeZone := mkZone (fun _ => k) (fun _ => k).

Definition seoul : TimeZone := fixedZone (9 * msPerHour).

(** A zone with one clock change: offset [a] before the instant [T],
    offset [b] from [T] on.  The local times between [T + Z.min a b] and
    [T + Z.max a b] are read twice (the clock was put back, [b < a]) or
    never (it was put forward, [a < b]); a local time before
    [T + Z.max a b] is resolved with the offset [a] of before the change. *)
Definition changeZone (T a b : Z) : TimeZone :=
  mkZone (fun t => if t <? T then a else b)
         (fun l => if l <? T + Z.max a b then a else b).

(** America/New_York around the end of daylight-saving time in 2026:
    UTC-4 until 1 November 2026 06:00:00 UTC, when the local clock goes
    from 02:00 back to 01:00, and UTC-5 from then on. *)
Definition fallBack2026 : Z := 1793512800000.

Definition newYork2026 : TimeZone :=
  changeZone fallBack2026 (-4 * msPerHour) (-5 * msPerHour).

(** A host with nothing registered, at clock reading [t] in zone [tz]. *)
Definition freshWorld (tz : TimeZone) (t : Z) : World := mkWorld t tz [] [] [] [].

(** The same host at another clock reading: a later event. *)
Definition atClock (t : Z) (w : World) : World :=
  mkWorld t (zone w) (alarms w) (dynamicRules w) (tabs w) (calls w).

(** The host after the install events that happen at the clock readings
    [ts], in order. *)
Definition installs (ts : list Z) (w : World) : World :=
  fold_left (fun w t => execHost onInstalled (atClock t w)) ts w.

(** The host after the alarm handler has run on the alarms [l], in
    order. *)
Definition fires (l : list Alarm) (w : World) : World :=
  fold_left (fun w a => execHost (onAlarm a) w) l w.

Definition rulesWithId (i : Z) (rs : list Rule) : list Rule :=
  filter (fun r => id r =? i) rs.

Definition rulesWithoutId (i : Z) (rs : list Rule) : list Rule :=
  filter (fun r => negb (id r =? i)) rs.

Definition alarmsNamed (n : string) (l : list Alarm) : list Alarm :=
  filter (fun a => String.eqb (name a) n) l.

Definition alarmsNotNamed (n : string) (l : list Alarm) : list Alarm :=
  filter (fun a => negb (String.eqb (name a) n)) l.

(* ================================================================== *)
(** * Facts about time values                                           *)
(* ================================================================== *)

Ltac zdiv := Z.to_euclidean_division_equations; lia.

Lemma DaysInYear_cases y : DaysInYear y = 365 \/ DaysInYear y = 366.
Proof.
  unfold DaysInYear.
  destruct (y mod 4 =? 0), (y mod 100 =? 0), (y mod 400 =? 0); cbn [negb]; auto.
Qed.

Lemma DayFromYear_step y : DayFromYear (y + 1) = DayFromYear y + DaysInYear y.
Proof.
  unfold DayFromYear, DaysInYear.
  destruct (Z.eqb_spec (y mod 4) 0), (Z.eqb_spec (y mod 100) 0),
    (Z.eqb_spec (y mod 400) 0); cbn [negb]; zdiv.
Qed.

Lemma DayFromYear_lt y y' : y < y' -> DayFromYear y < DayFromYear y'.
Proof. unfold DayFromYear. zdiv. Qed.

Lemma DayFromYear_le y y' : y <= y' -> DayFromYear y <= DayFromYear y'.
Proof.
  intros H. destruct (Z.eq_dec y y') as [->|]; [lia|].
  apply Z.lt_le_incl, DayFromYear_lt. lia.
Qed.

(** [YearFromTime] picks the year whose days contain [Day t]. *)
Lemma YearFromTime_spec t :
  DayFromYear (YearFromTime t) <= Day t < DayFromYear (YearFromTime t + 1).
Proof.
  unfold YearFromTime. set (d := Day t). clearbody d. cbv zeta.
  destruct (Z.leb_spec (DayFromYear (1970 + 400 * d / 146097 + 1)) d);
    [| destruct (Z.ltb_spec d (DayFromYear (1970 + 400 * d / 146097)))];
    unfold DayFromYear in *; zdiv.
Qed.

(** It is the year of the standard: the largest [y] with
    [TimeFromYear y <= t]. *)
Lemma YearFromTime_largest t y : TimeFromYear y <= t <-> y <= YearFromTime t.
Proof.
  pose proof (YearFromTime_spec t) as [Hlo Hhi].
  assert (Hd : TimeFromYear y <= t <-> DayFromYear y <= Day t).
  { unfold TimeFromYear, Day, msPerDay. zdiv. }
  rewrite Hd. split; intros H.
  - destruct (Z_le_gt_dec y (YearFromTime t)) as [|Hgt]; [assumption|].
    assert (DayFromYear (YearFromTime t + 1) <= DayFromYear y)
      by (apply DayFromYear_le; lia).
    lia.
  - pose proof (DayFromYear_le _ _ H). lia.
Qed.

Lemma DayWithinYear_range t :
  0 <= DayWithinYear t < DaysInYear (YearFromTime t).
Proof.
  pose proof (YearFromTime_spec t). rewrite DayFromYear_step in *.
  unfold DayWithinYear. lia.
Qed.

Lemma InLeapYear_cases t :
  (InLeapYear t = 0 /\ DaysInYear (YearFromTime t) = 365)
  \/ (InLeapYear t = 1 /\ DaysInYear (YearFromTime t) = 366).
Proof.
  unfold InLeapYear.
  destruct (DaysInYear_cases (YearFromTime t)) as [E|E]; rewrite E; cbn; auto.
Qed.

Lemma month_cases m :
  0 <= m <= 11 ->
  m = 0 \/ m = 1 \/ m = 2 \/ m = 3 \/ m = 4 \/ m = 5 \/ m = 6 \/ m = 7
  \/ m = 8 \/ m = 9 \/ m = 10 \/ m = 11.
Proof. lia. Qed.

(** Case analysis on a month number known to be in range. *)
Ltac by_month H :=
  let E := fresh "E" in
  pose proof (month_cases _ H) as E;
  repeat (destruct E as [E|E]); rewrite E in *.

Lemma MonthFromTime_range t : 0 <= MonthFromTime t <= 11.
Proof.
  unfold MonthFromTime. cbv zeta.
  repeat match goal with
         | |- context [if ?b then _ else _] => destruct b
         end; lia.
Qed.

(** The day of the month counts from the first day of the month. *)
Lemma DateFromTime_eq t :
  DateFromTime t =
  DayWithinYear t - DaysBeforeMonth (MonthFromTime t) (InLeapYear t) + 1.
Proof.
  unfold DateFromTime. cbv zeta.
  pose proof (MonthFromTime_range t) as Hm.
  by_month Hm; cbn [DaysBeforeMonth]; lia.
Qed.

Lemma DateFromTime_range t : 1 <= DateFromTime t <= 31.
Proof.
  rewrite DateFromTime_eq.
  pose proof (DayWithinYear_range t) as Hd.
  unfold MonthFromTime. cbv zeta.
  destruct (InLeapYear_cases t) as [[-> E]|[-> E]]; rewrite E in Hd;
    repeat match goal with
           | |- context [if ?a <? ?b then _ else _] => destruct (Z.ltb_spec a b)
           end; cbn; lia.
Qed.

(** [MakeDay] on the year and month of [t] counts days from the first day
    of the month of [t]. *)
Lemma MakeDay_of_time t dt :
  MakeDay (YearFromTime t) (MonthFromTime t) dt = Day t + (dt - DateFromTime t).
Proof.
  rewrite DateFromTime_eq. unfold MakeDay. cbv zeta.
  pose proof (MonthFromTime_range t) as Hm.
  replace (MonthFromTime t / 12) with 0 by zdiv.
  replace (MonthFromTime t mod 12) with (MonthFromTime t) by zdiv.
  rewrite Z.add_0_r. fold (InLeapYear t). unfold DayWithinYear. lia.
Qed.

(** [setDate (getDate () + 1)] moves to the next day. *)
Lemma MakeDay_next_date t :
  MakeDay (YearFromTime t) (MonthFromTime t) (DateFromTime t + 1) = Day t + 1.
Proof. rewrite MakeDay_of_time. lia. Qed.

Lemma Day_MakeDate d time :
  0 <= time < msPerDay -> Day (MakeDate d time) = d.
Proof. unfold Day, MakeDate, msPerDay. intros. zdiv. Qed.

Lemma TimeWithinDay_MakeDate d time :
  0 <= time < msPerDay -> TimeWithinDay (MakeDate d time) = time.
Proof. unfold TimeWithinDay, MakeDate, msPerDay. intros. zdiv. Qed.

Lemma MakeDate_Day t : MakeDate (Day t) (TimeWithinDay t) = t.
Proof. unfold MakeDate, Day, TimeWithinDay, msPerDay. zdiv. Qed.

Lemma TimeWithinDay_range t : 0 <= TimeWithinDay t < msPerDay.
Proof. unfold TimeWithinDay, msPerDay. zdiv. Qed.

Lemma noonTime_eq : noonTime = 43200000.
Proof. reflexivity. Qed.

(** The clock reads 12:00:00.000 at the time value "day [d], noon". *)
Lemma noon_reading d :
  let t := MakeDate d noonTime in
  Day t = d /\ HourFromTime t = 12 /\ MinFromTime t = 0
  /\ SecFromTime t = 0 /\ msFromTime t = 0.
Proof.
  cbv zeta. rewrite noonTime_eq.
  unfold Day, HourFromTime, MinFromTime, SecFromTime, msFromTime, MakeDate,
    msPerDay, msPerHour, msPerMinute, msPerSecond.
  repeat split; zdiv.
Qed.

(** The day computed by [MakeDay] is the one the standard asks for: the
    time value at its start is the first day of the given month and year. *)
Lemma MakeDay_first y mn :
  0 <= mn <= 11 ->
  let t := MakeDate (MakeDay y mn 1) 0 in
  YearFromTime t = y /\ MonthFromTime t = mn /\ DateFromTime t = 1.
Proof.
  intros Hmn. cbv zeta.
  set (t := MakeDate (MakeDay y mn 1) 0).
  assert (Hday : Day t = MakeDay y mn 1)
    by (apply Day_MakeDate; unfold msPerDay; lia).
  assert (Hmk : MakeDay y mn 1 =
                DayFromYear y + DaysBeforeMonth mn (if DaysInYear y =? 366 then 1 else 0)).
  { unfold MakeDay. cbv zeta.
    replace (mn / 12) with 0 by zdiv. replace (mn mod 12) with mn by zdiv.
    rewrite Z.add_0_r. lia. }
  assert (Hoff : 0 <= DaysBeforeMonth mn (if DaysInYear y =? 366 then 1 else 0)
                 < DaysInYear y).
  { destruct (DaysInYear_cases y) as [E|E]; rewrite E; cbn [Z.eqb Pos.eqb];
      by_month Hmn; cbn [DaysBeforeMonth]; lia. }
  assert (Hy : YearFromTime t = y).
  { pose proof (YearFromTime_spec t) as [Hlo Hhi]. rewrite Hday, Hmk in Hlo, Hhi.
    destruct (Z.lt_trichotomy (YearFromTime t) y) as [Hlt|[Heq|Hgt]]; [|assumption|].
    - assert (DayFromYear (YearFromTime t + 1) <= DayFromYear y)
        by (apply DayFromYear_le; lia). lia.
    - assert (DayFromYear (y + 1) <= DayFromYear (YearFromTime t))
        by (apply DayFromYear_le; lia).
      rewrite DayFromYear_step in *. lia. }
  assert (Hdw : DayWithinYear t =
                DaysBeforeMonth mn (if DaysInYear y =? 366 then 1 else 0)).
  { unfold DayWithinYear. rewrite Hy, Hday, Hmk. lia. }
  assert (Hm : MonthFromTime t = mn).
  { unfold MonthFromTime, InLeapYear. cbv zeta. rewrite Hdw, Hy.
    destruct (DaysInYear y =? 366); by_month Hmn; reflexivity. }
  repeat split; try assumption.
  rewrite DateFromTime_eq, Hm, Hdw. unfold InLeapYear. rewrite Hy. lia.
Qed.

(* ================================================================== *)
(** * Time zones                                                        *)
(* ================================================================== *)

Lemma fixedZone_regular k :
  - msPerDay <= k <= msPerDay -> NoonRegular (fixedZone k).
Proof.
  intros Hk. constructor; unfold localNoon, LocalTime, UTC;
    cbn [fixedZone offsetAt localOffset]; intros; lia.
Qed.

Lemma seoul_regular : NoonRegular seoul.
Proof. apply fixedZone_regular. unfold msPerDay, msPerHour. lia. Qed.

(** A zone that changes its clocks is regular as well, provided no noon
    falls among the local times the change repeats or skips. *)
Lemma changeZone_regular T a b :
  - msPerDay <= a <= msPerDay ->
  - msPerDay <= b <= msPerDay ->
  (forall d, MakeDate d noonTime < T + Z.min a b
             \/ T + Z.max a b <= MakeDate d noonTime) ->
  NoonRegular (changeZone T a b).
Proof.
  intros Ha Hb Hnoon.
  constructor; unfold localNoon, LocalTime, UTC;
    cbn [changeZone offsetAt localOffset].
  - intros t. destruct (t <? T); assumption.
  - intros d. specialize (Hnoon d).
    destruct (Z.ltb_spec (MakeDate d noonTime) (T + Z.max a b));
      match goal with
      | |- context [if ?x <? ?y then _ else _] => destruct (Z.ltb_spec x y)
      end; lia.
  - intros t d. specialize (Hnoon d).
    destruct (Z.ltb_spec t T);
      destruct (Z.ltb_spec (MakeDate d noonTime) (T + Z.max a b)); lia.
Qed.

Lemma newYork2026_regular : NoonRegular newYork2026.
Proof.
  apply changeZone_regular; unfold msPerDay, msPerHour; try lia.
  intros d. unfold MakeDate, fallBack2026, msPerDay. rewrite noonTime_eq. lia.
Qed.

(* ================================================================== *)
(** * [getNextNoon]                                                     *)
(* ================================================================== *)

(** [getNextNoon] reads the clock and the zone of the host, nothing else. *)
Lemma getNextNoon_eval (w : World) :
  evalHost getNextNoon w = nextNoonAt (zone w) (clock w).
Proof.
  unfold evalHost, nextNoonAt, getNextNoon, bind, newDate, Date_setHours,
    Date_getDate, Date_setDate, ret, getTime. cbn [fst snd].
  destruct (date_le _ _); reflexivity.
Qed.

Section RegularZone.

Variable w : World.
Hypothesis Hreg : NoonRegular (zone w).
Hypothesis Hclk : ClockInRange (clock w).

Local Abbreviation tz := (zone w).
Local Abbreviation now := (clock w).
Local Abbreviation today := (localDay (zone w) (clock w)).

Lemma localNoon_IsLocalNoonOf d : IsLocalNoonOf tz d (localNoon tz d).
Proof.
  unfold IsLocalNoonOf, ReadsNoon, localDay.
  rewrite (noon_exists _ Hreg). apply noon_reading.
Qed.

(** The local wall clock reads before noon exactly at the instants before
    the noon of the day. *)
Lemma wallClock_before_noon :
  wallClock tz now < noonTime <-> now < localNoon tz today.
Proof.
  rewrite <- (noon_order _ Hreg).
  pose proof (MakeDate_Day (LocalTime tz now)) as HL.
  unfold wallClock, localDay, MakeDate in *. lia.
Qed.

Lemma now_before_next_noon : now < localNoon tz (today + 1).
Proof.
  apply (noon_order _ Hreg).
  pose proof (MakeDate_Day (LocalTime tz now)) as HL.
  pose proof (TimeWithinDay_range (LocalTime tz now)) as HT.
  unfold localDay, MakeDate in *. rewrite noonTime_eq. unfold msPerDay in *. lia.
Qed.

(** The noons of today and tomorrow are time values. *)
Lemma localNoon_in_range d :
  today <= d <= today + 1 -> TimeClip (localNoon tz d) = Some (localNoon tz d).
Proof.
  intros Hd. unfold TimeClip.
  pose proof (noon_exists _ Hreg d) as Hex.
  pose proof (offset_bound _ Hreg (localNoon tz d)) as Hb1.
  pose proof (offset_bound _ Hreg now) as Hb2.
  pose proof (MakeDate_Day (LocalTime tz now)) as HL.
  pose proof (TimeWithinDay_range (LocalTime tz now)) as HT.
  pose proof Hclk as Hc.
  unfold ClockInRange, localDay, LocalTime, MakeDate in *.
  rewrite noonTime_eq in Hex.
  destruct (Z.gtb_spec (Z.abs (localNoon tz d)) maxTime) as [Hgt|]; [|reflexivity].
  exfalso. unfold maxTime, msPerDay in *. nia.
Qed.

Lemma setHours_noon :
  setHours tz (Some now) 12 0 0 0 = Some (localNoon tz today).
Proof.
  unfold setHours. cbv zeta. apply localNoon_in_range. lia.
Qed.

Lemma setDate_next_day :
  setDate tz (Some (localNoon tz today))
    (num_add (getDate tz (Some (localNoon tz today))) 1)
  = Some (localNoon tz (today + 1)).
Proof.
  unfold getDate, num_add, setDate. cbv zeta.
  rewrite (noon_exists _ Hreg), MakeDay_next_date.
  rewrite Day_MakeDate, TimeWithinDay_MakeDate
    by (rewrite noonTime_eq; unfold msPerDay; lia).
  apply localNoon_in_range. lia.
Qed.

(** The value of [getNextNoon]: the noon of today when the local clock
    reads a time before noon, the noon of tomorrow otherwise. *)
Lemma getNextNoon_value :
  evalHost getNextNoon w =
  Some (localNoon tz (if wallClock tz now <? noonTime then today else today + 1)).
Proof.
  rewrite getNextNoon_eval. unfold nextNoonAt. cbv zeta.
  rewrite setHours_noon. cbn [date_le].
  destruct (Z.ltb_spec (wallClock tz now) noonTime) as [Hlt|Hge].
  - apply wallClock_before_noon in Hlt.
    destruct (Z.leb_spec (localNoon tz today) now); [lia|]. reflexivity.
  - destruct (Z.leb_spec (localNoon tz today) now) as [|Hlt].
    + apply setDate_next_day.
    + apply wallClock_before_noon in Hlt. lia.
Qed.

End RegularZone.

(** C1. For every current local wall-clock time strictly before today's
    local noon, [getNextNoon] returns the timestamp of today's local noon:
    the instant of the current local day at which the local clock reads
    12:00:00.000.  (The clock reading is a time value at least four days
    inside the supported range, and the zone is regular at its noons.) *)
Theorem getNextNoon_before_noon (w : World) :
  NoonRegular (zone w) ->
  ClockInRange (clock w) ->
  wallClock (zone w) (clock w) < noonTime ->
  evalHost getNextNoon w
  = Some (localNoon (zone w) (localDay (zone w) (clock w)))
  /\ IsLocalNoonOf (zone w) (localDay (zone w) (clock w))
       (localNoon (zone w) (localDay (zone w) (clock w))).
Proof.
  intros Hreg Hclk Hlt. split.
  - rewrite (getNextNoon_value w Hreg Hclk).
    destruct (Z.ltb_spec (wallClock (zone w) (clock w)) noonTime); [reflexivity | lia].
  - apply localNoon_IsLocalNoonOf, Hreg.
Qed.

(** At 09:00 in Seoul on 2 November 2026 the next noon is that day's. *)
Lemma getNextNoon_before_noon_seoul :
  wallClock seoul 1793577600000 = 9 * msPerHour
  /\ evalHost getNextNoon (freshWorld seoul 1793577600000) = Some 1793588400000.
Proof.
  split; [reflexivity|].
  refine (proj1 (getNextNoon_before_noon (freshWorld seoul 1793577600000) _ _ _)).
  - exact seoul_regular.
  - unfold ClockInRange. cbn. lia.
  - reflexivity.
Defined.

(** C2. For every current local wall-clock time at or after today's local
    noon, the instant of noon included, [getNextNoon] returns the timestamp
    of tomorrow's local noon. *)
Theorem getNextNoon_from_noon_on (w : World) :
  NoonRegular (zone w) ->
  ClockInRange (clock w) ->
  noonTime <= wallClock (zone w) (clock w) ->
  evalHost getNextNoon w
  = Some (localNoon (zone w) (localDay (zone w) (clock w) + 1))
  /\ IsLocalNoonOf (zone w) (localDay (zone w) (clock w) + 1)
       (localNoon (zone w) (localDay (zone w) (clock w) + 1)).
Proof.
  intros Hreg Hclk Hge. split.
  - rewrite (getNextNoon_value w Hreg Hclk).
    destruct (Z.ltb_spec (wallClock (zone w) (clock w)) noonTime); [lia | reflexivity].
  - apply localNoon_IsLocalNoonOf, Hreg.
Qed.

(** At 12:00:00.000 in Seoul on 2 November 2026 the next noon is that of
    3 November. *)
Lemma getNextNoon_at_noon_seoul :
  wallClock seoul 1793588400000 = noonTime
  /\ evalHost getNextNoon (freshWorld seoul 1793588400000)
     = Some (1793588400000 + msPerDay).
Proof.
  split; [reflexivity|].
  refine (proj1 (getNextNoon_from_noon_on (freshWorld seoul 1793588400000) _ _ _)).
  - exact seoul_regular.
  - unfold ClockInRange. cbn. lia.
  - cbv. discriminate.
Defined.

(** C8, as the code has it.  The timestamp returned by [getNextNoon] is
    strictly greater than the current time and denotes an instant at which
    the local clock reads exactly 12:00:00.000; it lies at most 24 hours
    plus the difference between the UTC offset in force now and the one in
    force at that noon in the future - at most 24 hours, then, when the
    two offsets are the same. *)
Theorem getNextNoon_future_noon (w : World) :
  NoonRegular (zone w) ->
  ClockInRange (clock w) ->
  exists r,
    evalHost getNextNoon w = Some r
    /\ clock w < r
    /\ r - clock w
       <= msPerDay + (offsetAt (zone w) (clock w) - offsetAt (zone w) r)
    /\ (offsetAt (zone w) r = offsetAt (zone w) (clock w) -> r <= clock w + msPerDay)
    /\ ReadsNoon (zone w) r.
Proof.
  intros Hreg Hclk.
  pose proof (getNextNoon_value w Hreg Hclk) as Hv.
  pose proof (wallClock_before_noon w Hreg) as Hwc.
  pose proof (now_before_next_noon w Hreg) as Hnext.
  pose proof (MakeDate_Day (LocalTime (zone w) (clock w))) as HL.
  pose proof (TimeWithinDay_range (LocalTime (zone w) (clock w))) as HT.
  set (d := if wallClock (zone w) (clock w) <? noonTime
            then localDay (zone w) (clock w)
            else localDay (zone w) (clock w) + 1) in Hv.
  exists (localNoon (zone w) d).
  pose proof (noon_exists _ Hreg d) as Hex.
  assert (Hdist : clock w < localNoon (zone w) d
                  /\ localNoon (zone w) d - clock w
                     <= msPerDay + (offsetAt (zone w) (clock w)
                                    - offsetAt (zone w) (localNoon (zone w) d))).
  { subst d. clear Hv.
    destruct (Z.ltb_spec (wallClock (zone w) (clock w)) noonTime);
      unfold wallClock, localDay, LocalTime, MakeDate in *;
      rewrite noonTime_eq in *; unfold msPerDay in *; lia. }
  repeat split; try tauto; try lia.
  all: apply (localNoon_IsLocalNoonOf w Hreg d).
Qed.

(** In Seoul at 13:00 on 2 November 2026 the next noon is 23 hours away. *)
Lemma getNextNoon_future_noon_seoul :
  exists r,
    evalHost getNextNoon (freshWorld seoul 1793592000000) = Some r
    /\ 1793592000000 < r
    /\ r - 1793592000000 <= msPerDay + (9 * msPerHour - 9 * msPerHour)
    /\ (9 * msPerHour = 9 * msPerHour -> r <= 1793592000000 + msPerDay)
    /\ ReadsNoon seoul r.
Proof.
  refine (getNextNoon_future_noon (freshWorld seoul 1793592000000) _ _).
  - exact seoul_regular.
  - unfold ClockInRange. cbn. lia.
Defined.

(** C8, as stated, fails where the clocks are put back: in New York at
    12:00:00.000 on 31 October 2026 (16:00 UTC) the returned noon, that of
    1 November, is 25 hours away. *)
Lemma getNextNoon_25_hours_ahead :
  wallClock newYork2026 1793462400000 = noonTime
  /\ evalHost getNextNoon (freshWorld newYork2026 1793462400000)
     = Some (1793462400000 + 25 * msPerHour)
  /\ ~ (1793462400000 + 25 * msPerHour <= 1793462400000 + 24 * msPerHour).
Proof.
  split; [reflexivity|]. split; [vm_compute; reflexivity|].
  unfold msPerHour. lia.
Qed.

(** C9. [getNextNoon] is deterministic in the current time: run on two
    hosts with the same clock reading and the same local time zone,
    whatever else they hold, it returns the same timestamp. *)
Theorem getNextNoon_deterministic (w1 w2 : World) :
  clock w1 = clock w2 ->
  zone w1 = zone w2 ->
  evalHost getNextNoon w1 = evalHost getNextNoon w2.
Proof.
  intros Hc Hz. rewrite !getNextNoon_eval. rewrite Hc, Hz. reflexivity.
Qed.

(** Two hosts at the same instant in Seoul, one of them with a tab open
    and an alarm registered. *)
Lemma getNextNoon_deterministic_seoul :
  evalHost getNextNoon (freshWorld seoul 1793592000000)
  = evalHost getNextNoon
      (mkWorld 1793592000000 seoul [mkAlarm "other" None 5] []
         ["dashboard.html?auto=true"%string] []).
Proof.
  apply getNextNoon_deterministic; reflexivity.
Defined.

(* ================================================================== *)
(** * Strings and lists                                                 *)
(* ================================================================== *)

Lemma prefix_app (a s : string) :
  String.prefix a s = true <-> exists post, s = (a ++ post)%string.
Proof.
  revert a. induction s as [|c' s IH]; intros [|c a]; cbn.
  - split; [intros _; exists EmptyString; reflexivity | reflexivity].
  - split; [discriminate | intros [post H]; discriminate].
  - split; [intros _; exists (String c' s); reflexivity | reflexivity].
  - destruct (ascii_dec c c') as [->|Hne].
    + rewrite IH. split; intros [post H]; exists post; congruence.
    + split; [discriminate | intros [post H]; congruence].
Qed.

(** [contains] decides the occurrence of a substring. *)
Lemma contains_spec (sub s : string) :
  contains sub s = true <-> exists pre post, s = (pre ++ sub ++ post)%string.
Proof.
  induction s as [|c s IH]; cbn [contains]; rewrite orb_true_iff, prefix_app.
  - split.
    + intros [[post H]|H]; [|discriminate]. exists EmptyString, post. exact H.
    + intros [pre [post H]]. left. destruct pre; [|discriminate]. exists post. exact H.
  - rewrite IH. split.
    + intros [[post H]|[pre [post H]]].
      * exists EmptyString, post. exact H.
      * exists (String c pre), post. cbn. congruence.
    + intros [pre [post H]]. destruct pre as [|c' pre]; cbn in H.
      * left. exists post. exact H.
      * right. exists pre, post. congruence.
Qed.

Lemma filter_app_singleton {A : Type} (p : A -> bool) (l : list A) (x : A) :
  filter p (l ++ [x]) = filter p l ++ (if p x then [x] else []).
Proof. rewrite filter_app. reflexivity. Qed.

Lemma filter_none {A : Type} (p q : A -> bool) (l : list A) :
  (forall x, p x = true -> q x = false) -> filter q (filter p l) = [].
Proof.
  intros H. induction l as [|x l IH]; cbn; [reflexivity|].
  destruct (p x) eqn:E; cbn; [rewrite (H x E)|]; exact IH.
Qed.

Lemma filter_all {A : Type} (p q : A -> bool) (l : list A) :
  (forall x, p x = true -> q x = true) -> filter q (filter p l) = filter p l.
Proof.
  intros H. induction l as [|x l IH]; cbn; [reflexivity|].
  destruct (p x) eqn:E; cbn; [rewrite (H x E), IH|]; auto.
Qed.

(* ================================================================== *)
(** * The installer                                                     *)
(* ================================================================== *)

Lemma rulesWithoutId_ids (i : Z) (rs : list Rule) :
  existsb (Z.eqb i) (map id (rulesWithoutId i rs)) = false.
Proof.
  unfold rulesWithoutId.
  induction rs as [|r rs IH]; cbn [filter map existsb]; [reflexivity|].
  destruct (Z.eqb_spec (id r) i) as [E|E]; cbn [negb map existsb]; [exact IH|].
  rewrite IH, orb_false_r. apply Z.eqb_neq. congruence.
Qed.

(** The update the installer asks for is never refused: with the
    identifier removed first, the added rule clashes with nothing. *)
Lemma updateRules_ruleUpdate (rs : list Rule) :
  updateRules ruleUpdate rs = Some (rulesWithoutId RULE_ID rs ++ [headerRule]).
Proof.
  unfold updateRules. cbv zeta.
  assert (Hf : filter (fun r => negb (removesRule ruleUpdate r)) rs
               = rulesWithoutId RULE_ID rs).
  { apply filter_ext. intros r. unfold removesRule. cbn. rewrite orb_false_r.
    reflexivity. }
  rewrite Hf. cbn [addRules ruleUpdate existsb map distinct id headerRule].
  rewrite rulesWithoutId_ids. reflexivity.
Qed.

(** The host after the installer has run. *)
Lemma onInstalled_exec (w : World) :
  execHost onInstalled w =
  let info := {| when := evalHost getNextNoon w; periodInMinutes := 1440 |} in
  mkWorld (clock w) (zone w)
    (registerAlarm "dailyCheck" info (alarms w))
    (rulesWithoutId RULE_ID (dynamicRules w) ++ [headerRule])
    (tabs w)
    (calls w ++ [AlarmsCreate "dailyCheck" info; UpdateDynamicRules ruleUpdate]).
Proof.
  unfold execHost, evalHost, onInstalled, setupDailyAlarm, bind.
  assert (Hsame : snd (getNextNoon w) = w).
  { unfold getNextNoon, bind, newDate, Date_setHours, Date_getDate,
      Date_setDate, ret. cbn [fst snd]. destruct (date_le _ _); reflexivity. }
  destruct (getNextNoon w) as [noon w'] eqn:E. cbn [fst snd] in *. subst w'.
  unfold alarms_create, declarativeNetRequest_updateDynamicRules, logCall.
  cbn [fst snd clock zone alarms dynamicRules tabs calls].
  rewrite updateRules_ruleUpdate. cbn [snd]. rewrite <- app_assoc. reflexivity.
Qed.

Lemma onInstalled_header_rule (w : World) :
  rulesWithId RULE_ID (dynamicRules (execHost onInstalled w)) = [headerRule].
Proof.
  rewrite onInstalled_exec. cbv zeta. cbn [dynamicRules].
  unfold rulesWithId, rulesWithoutId. rewrite filter_app_singleton.
  rewrite filter_none; [reflexivity|].
  intros r H. apply negb_true_iff in H. exact H.
Qed.

Lemma installs_header_rule (ts : list Z) (t : Z) (w : World) :
  rulesWithId RULE_ID (dynamicRules (installs (t :: ts) w)) = [headerRule].
Proof.
  revert t w. induction ts as [|t' ts IH]; intros t w.
  - apply onInstalled_header_rule.
  - exact (IH t' (execHost onInstalled (atClock t w))).
Qed.

(** C3. After every run of the installer exactly one rule with the fixed
    identifier is in the dynamic rule set, the header rule; and after any
    number of runs, at whatever times, there is still exactly one, since
    the update removes the identifier before it adds the rule. *)
Theorem installer_one_header_rule (w : World) (t : Z) (ts : list Z) :
  rulesWithId RULE_ID (dynamicRules (execHost onInstalled w)) = [headerRule]
  /\ rulesWithId RULE_ID (dynamicRules (installs (t :: ts) w)) = [headerRule]
  /\ List.length (rulesWithId RULE_ID (dynamicRules (installs (t :: ts) w))) = 1%nat.
Proof.
  split; [apply onInstalled_header_rule|].
  rewrite installs_header_rule. split; reflexivity.
Qed.

(** C10. The rule update of the installer touches only the rule with
    identifier 1: it removes the list [[1]], every rule it adds has
    identifier 1, it is the only update the installer issues, and the
    rules with another identifier are after the installation what they
    were before it. *)
Theorem installer_rule_frame (w : World) :
  removeRuleIds ruleUpdate = [1]
  /\ Forall (fun r => id r = 1) (addRules ruleUpdate)
  /\ (exists c, calls (execHost onInstalled w)
                = calls w ++ [AlarmsCreate "dailyCheck" c; UpdateDynamicRules ruleUpdate])
  /\ rulesWithoutId 1 (dynamicRules (execHost onInstalled w))
     = rulesWithoutId 1 (dynamicRules w)
  /\ (forall i, i <> 1 ->
        rulesWithId i (dynamicRules (execHost onInstalled w))
        = rulesWithId i (dynamicRules w)).
Proof.
  rewrite onInstalled_exec. cbv zeta. cbn [dynamicRules calls].
  split; [reflexivity|]. split; [repeat constructor|].
  split; [eexists; reflexivity|]. split.
  - unfold rulesWithoutId. rewrite filter_app_singleton. cbn.
    rewrite app_nil_r. apply filter_all. auto.
  - intros i Hi. unfold rulesWithId, rulesWithoutId.
    rewrite filter_app_singleton. cbn [id headerRule].
    destruct (Z.eqb_spec RULE_ID i) as [E|_]; [unfold RULE_ID in E; lia|].
    rewrite app_nil_r.
    induction (dynamicRules w) as [|r rs IH]; cbn [filter]; [reflexivity|].
    destruct (Z.eqb_spec (id r) RULE_ID) as [E1|E1]; cbn [negb filter].
    + destruct (Z.eqb_spec (id r) i); [unfold RULE_ID in E1; lia | exact IH].
    + destruct (id r =? i); [rewrite IH|]; auto.
Qed.

(** C6. On every install event the installer registers exactly one alarm:
    it is named "dailyCheck", its first-fire time is the value computed by
    [getNextNoon] and its period is 1440 minutes.  The installer calls the
    alarm API once; afterwards the alarm store holds that alarm as the only
    one of its name, and the alarms of other names as they were. *)
Theorem installer_registers_daily_alarm (w : World) :
  let w' := execHost onInstalled w in
  let info := {| when := evalHost getNextNoon w; periodInMinutes := 1440 |} in
  calls w'
  = calls w ++ [AlarmsCreate "dailyCheck" info; UpdateDynamicRules ruleUpdate]
  /\ alarmsNamed "dailyCheck" (alarms w')
     = [mkAlarm "dailyCheck" (evalHost getNextNoon w) 1440]
  /\ alarmsNotNamed "dailyCheck" (alarms w')
     = alarmsNotNamed "dailyCheck" (alarms w).
Proof.
  cbv zeta. rewrite onInstalled_exec. cbv zeta. cbn [calls alarms].
  split; [reflexivity|].
  unfold alarmsNamed, alarmsNotNamed, registerAlarm.
  rewrite !filter_app_singleton. cbn [name when periodInMinutes].
  rewrite String.eqb_refl. cbn [negb]. split.
  - rewrite filter_none; [reflexivity|].
    intros a H. apply negb_true_iff in H. exact H.
  - rewrite app_nil_r. apply filter_all. auto.
Qed.

(* ================================================================== *)
(** * The header rule                                                   *)
(* ================================================================== *)

Lemma lookupHeader_dropHeader (h k : string) (hs : list (string * string)) :
  h <> k -> lookupHeader h (dropHeader k hs) = lookupHeader h hs.
Proof.
  intros Hne. unfold dropHeader.
  induction hs as [|[k' v] hs IH]; cbn [filter lookupHeader fst]; [reflexivity|].
  destruct (String.eqb_spec k' k) as [->|Hk]; cbn [negb lookupHeader].
  - destruct (String.eqb_spec k h); [congruence | exact IH].
  - rewrite IH. reflexivity.
Qed.

(** C7. The installer installs a single rule: its one rule update adds
    exactly one rule, and that rule is afterwards the rule of identifier 1
    in the dynamic rule set.  The rule matches exactly the requests whose
    URL contains "m.search.naver.com" and whose resource type is
    xmlhttprequest, sub_frame or main_frame; its action sets the
    User-Agent request header of a matching request to the fixed iPhone
    Safari string, other headers and other requests being left as they
    are. *)
Theorem installer_rule_matches_and_sets_user_agent (w : World) :
  exists info r,
    calls (execHost onInstalled w)
    = calls w ++ [AlarmsCreate "dailyCheck" info;
                  UpdateDynamicRules {| removeRuleIds := [1]; addRules := [r] |}]
    /\ rulesWithId 1 (dynamicRules (execHost onInstalled w)) = [r]
    /\ action r
       = {| action_type := modifyHeaders;
            requestHeaders :=
              [ {| header := "User-Agent"; operation := op_set;
                   value := "Mozilla/5.0 (iPhone; CPU iPhone OS 16_0 like Mac OS X) AppleWebKit/605.1.15 (KHTML, like Gecko) Version/16.0 Mobile/15E148 Safari/604.1" |} ] |}
    /\ (forall q,
          ruleMatches r q = true <->
          (exists pre post,
              requestUrl q = (pre ++ "m.search.naver.com" ++ post)%string)
          /\ (requestType q = xmlhttprequest \/ requestType q = sub_frame
              \/ requestType q = main_frame))
    /\ (forall q,
          ruleMatches r q = true ->
          lookupHeader "User-Agent" (headers (applyRule r q))
          = Some "Mozilla/5.0 (iPhone; CPU iPhone OS 16_0 like Mac OS X) AppleWebKit/605.1.15 (KHTML, like Gecko) Version/16.0 Mobile/15E148 Safari/604.1"%string
          /\ (forall h, h <> "User-Agent"%string ->
                lookupHeader h (headers (applyRule r q))
                = lookupHeader h (headers q))
          /\ requestUrl (applyRule r q) = requestUrl q
          /\ requestType (applyRule r q) = requestType q)
    /\ (forall q, ruleMatches r q = false -> applyRule r q = q).
Proof.
  exists {| when := evalHost getNextNoon w; periodInMinutes := 1440 |}, headerRule.
  split; [rewrite onInstalled_exec; reflexivity|].
  split; [apply onInstalled_header_rule|].
  split; [reflexivity|]. split; [|split].
  - intros q. unfold ruleMatches, conditionHolds.
    cbn [condition headerRule urlFilter resourceTypes existsb].
    rewrite andb_true_iff, contains_spec, !orb_true_iff.
    destruct (requestType q); cbn; intuition discriminate.
  - intros q Hm. unfold applyRule. rewrite Hm.
    cbn [action headerRule action_type requestHeaders fold_left headers
         requestUrl requestType].
    unfold modifyHeader. cbn [operation header value lookupHeader].
    rewrite String.eqb_refl. repeat split.
    intros h Hh. destruct (String.eqb_spec "User-Agent" h) as [E|_]; [congruence|].
    apply lookupHeader_dropHeader. exact Hh.
  - intros q Hm. unfold applyRule. rewrite Hm. reflexivity.
Qed.

(* ================================================================== *)
(** * The alarm handler                                                 *)
(* ================================================================== *)

Lemma onAlarm_exec (w : World) (alarm : Alarm) :
  execHost (onAlarm alarm) w =
  if String.eqb (name alarm) "dailyCheck"
  then mkWorld (clock w) (zone w) (alarms w) (dynamicRules w)
         (tabs w ++ ["dashboard.html?auto=true"%string])
         (calls w ++ [TabsCreate {| url := "dashboard.html?auto=true" |}])
  else w.
Proof.
  unfold execHost, onAlarm. destruct (String.eqb (name alarm) "dailyCheck"); reflexivity.
Qed.

(** C4. For every alarm delivered to the handler, the handler opens a
    dashboard page if and only if the name of the alarm is exactly
    "dailyCheck"; with any other name it opens no tab and leaves the host
    as it was. *)
Theorem onAlarm_opens_iff_dailyCheck (w : World) (alarm : Alarm) :
  let w' := execHost (onAlarm alarm) w in
  (tabs w' <> tabs w <-> name alarm = "dailyCheck"%string)
  /\ (name alarm = "dailyCheck"%string ->
      tabs w' = tabs w ++ ["dashboard.html?auto=true"%string])
  /\ (name alarm <> "dailyCheck"%string -> w' = w).
Proof.
  cbv zeta. rewrite onAlarm_exec.
  destruct (String.eqb_spec (name alarm) "dailyCheck") as [E|E]; cbn [tabs].
  - repeat split; try tauto.
    intros _ H. apply (f_equal (@List.length string)) in H.
    rewrite length_app in H. cbn in H. lia.
  - repeat split; tauto.
Qed.

(** C5. Whenever the handler opens a tab, the URL is exactly
    "dashboard.html?auto=true", whose query holds the parameter auto=true;
    a firing named "dailyCheck" opens exactly one tab, by one call of the
    tab API. *)
Theorem onAlarm_opened_url (w : World) (alarm : Alarm) :
  exists opened,
    tabs (execHost (onAlarm alarm) w) = tabs w ++ opened
    /\ calls (execHost (onAlarm alarm) w)
       = calls w ++ map (fun u => TabsCreate {| url := u |}) opened
    /\ Forall (fun u => u = "dashboard.html?auto=true"%string
                        /\ In "auto=true"%string (query_params u)) opened
    /\ (name alarm = "dailyCheck"%string -> List.length opened = 1%nat).
Proof.
  rewrite onAlarm_exec.
  destruct (String.eqb_spec (name alarm) "dailyCheck") as [E|E].
  - exists ["dashboard.html?auto=true"%string]. cbn [tabs calls map].
    repeat split. constructor; [|constructor].
    split; [reflexivity | cbn; auto].
  - exists []. rewrite !app_nil_r. repeat split; [constructor | tauto].
Qed.

(* ================================================================== *)
(** * Further properties of the script                                  *)
(* ================================================================== *)

(** ** The next noon *)

Lemma localNoon_lt tz d d' :
  NoonRegular tz -> d < d' -> localNoon tz d < localNoon tz d'.
Proof.
  intros Hreg H. apply (noon_order _ Hreg). rewrite (noon_exists _ Hreg).
  unfold MakeDate, msPerDay. lia.
Qed.

Lemma localNoon_le tz d d' :
  NoonRegular tz -> d <= d' -> localNoon tz d <= localNoon tz d'.
Proof.
  intros Hreg H. destruct (Z.eq_dec d d') as [->|]; [lia|].
  apply Z.lt_le_incl, localNoon_lt; [assumption | lia].
Qed.

(** A noon after the instant [t] is the noon of the local day of [t] or
    of a later day. *)
Lemma noon_after_day tz t d :
  NoonRegular tz -> t < localNoon tz d -> localDay tz t <= d.
Proof.
  intros Hreg H. apply (noon_order _ Hreg) in H.
  pose proof (MakeDate_Day (LocalTime tz t)) as HL.
  pose proof (TimeWithinDay_range (LocalTime tz t)) as HT.
  unfold localDay, MakeDate in *. rewrite noonTime_eq in H.
  unfold msPerDay in *. lia.
Qed.

(** [getNextNoon] returns the first local noon after the current time. *)
Lemma getNextNoon_least (w : World) :
  NoonRegular (zone w) -> ClockInRange (clock w) ->
  exists d,
    evalHost getNextNoon w = Some (localNoon (zone w) d)
    /\ clock w < localNoon (zone w) d
    /\ forall d', clock w < localNoon (zone w) d' ->
                  localNoon (zone w) d <= localNoon (zone w) d'.
Proof.
  intros Hreg Hclk. rewrite (getNextNoon_value w Hreg Hclk).
  pose proof (wallClock_before_noon w Hreg) as Hwc.
  destruct (Z.ltb_spec (wallClock (zone w) (clock w)) noonTime) as [Hlt|Hge].
  - exists (localDay (zone w) (clock w)). split; [reflexivity|].
    split; [apply Hwc, Hlt|].
    intros d' Hd'. apply localNoon_le; [assumption|].
    apply noon_after_day; assumption.
  - exists (localDay (zone w) (clock w) + 1). split; [reflexivity|].
    split; [apply now_before_next_noon; assumption|].
    intros d' Hd'. apply localNoon_le; [assumption|].
    pose proof (noon_after_day _ _ _ Hreg Hd') as Hday.
    destruct (Z.eq_dec d' (localDay (zone w) (clock w))) as [->|]; [|lia].
    apply Hwc in Hd'. lia.
Qed.

(** X1. The timestamp [getNextNoon] returns is the earliest local noon
    strictly after the current time: it is the local noon of some day, it
    is later than the clock reading, and no local noon of any day lies
    after the clock reading and before it. *)
Theorem getNextNoon_earliest_noon (w : World) :
  NoonRegular (zone w) ->
  ClockInRange (clock w) ->
  exists r d,
    evalHost getNextNoon w = Some r
    /\ r = localNoon (zone w) d
    /\ clock w < r
    /\ forall d', clock w < localNoon (zone w) d' -> r <= localNoon (zone w) d'.
Proof.
  intros Hreg Hclk.
  destruct (getNextNoon_least w Hreg Hclk) as [d [Hv [Hlt Hmin]]].
  exists (localNoon (zone w) d), d. auto.
Qed.

Lemma getNextNoon_earliest_noon_seoul :
  exists r d,
    evalHost getNextNoon (freshWorld seoul 1793592000000) = Some r
    /\ r = localNoon seoul d
    /\ 1793592000000 < r
    /\ forall d', 1793592000000 < localNoon seoul d' -> r <= localNoon seoul d'.
Proof.
  refine (getNextNoon_earliest_noon (freshWorld seoul 1793592000000) _ _).
  - exact seoul_regular.
  - unfold ClockInRange. cbn. lia.
Defined.

(** X2. [getNextNoon] is monotone in the clock: in one zone, a later
    clock reading never yields an earlier timestamp. *)
Theorem getNextNoon_monotone (w1 w2 : World) :
  zone w1 = zone w2 ->
  NoonRegular (zone w1) ->
  ClockInRange (clock w1) ->
  ClockInRange (clock w2) ->
  clock w1 <= clock w2 ->
  exists r1 r2,
    evalHost getNextNoon w1 = Some r1
    /\ evalHost getNextNoon w2 = Some r2
    /\ r1 <= r2.
Proof.
  intros Hz Hreg Hc1 Hc2 Hle.
  destruct (getNextNoon_least w1 Hreg Hc1) as [d1 [Hv1 [_ Hmin]]].
  assert (Hreg2 : NoonRegular (zone w2)) by (rewrite <- Hz; exact Hreg).
  destruct (getNextNoon_least w2 Hreg2 Hc2) as [d2 [Hv2 [Hlt2 _]]].
  rewrite <- Hz in Hv2, Hlt2.
  exists (localNoon (zone w1) d1), (localNoon (zone w1) d2).
  repeat split; try assumption. apply Hmin. lia.
Qed.

(** In Seoul on 2 November 2026, at 09:00 and at 13:00. *)
Lemma getNextNoon_monotone_seoul :
  exists r1 r2,
    evalHost getNextNoon (freshWorld seoul 1793577600000) = Some r1
    /\ evalHost getNextNoon (freshWorld seoul 1793592000000) = Some r2
    /\ r1 <= r2.
Proof.
  refine (getNextNoon_monotone (freshWorld seoul 1793577600000)
            (freshWorld seoul 1793592000000) _ _ _ _ _).
  - reflexivity.
  - exact seoul_regular.
  - unfold ClockInRange. cbn. lia.
  - unfold ClockInRange. cbn. lia.
  - cbn. lia.
Defined.

(** X3. Asked again at the instant it returned, [getNextNoon] returns the
    local noon of the following day: successive results step through the
    local days one at a time. *)
Theorem getNextNoon_steps_one_day (w : World) (r : Z) :
  NoonRegular (zone w) ->
  ClockInRange (clock w) ->
  ClockInRange r ->
  evalHost getNextNoon w = Some r ->
  exists d,
    r = localNoon (zone w) d
    /\ evalHost getNextNoon (atClock r w) = Some (localNoon (zone w) (d + 1)).
Proof.
  intros Hreg Hclk Hr Hv.
  destruct (getNextNoon_least w Hreg Hclk) as [d [Hv' _]].
  rewrite Hv in Hv'. injection Hv' as ->. exists d. split; [reflexivity|].
  rewrite (getNextNoon_value (atClock (localNoon (zone w) d) w) Hreg Hr).
  cbn [zone clock atClock]. unfold wallClock, localDay.
  rewrite (noon_exists _ Hreg).
  rewrite Day_MakeDate, TimeWithinDay_MakeDate
    by (rewrite noonTime_eq; unfold msPerDay; lia).
  rewrite Z.ltb_irrefl. reflexivity.
Qed.

(** From 09:00 in Seoul on 2 November 2026: noon of that day, then noon
    of 3 November. *)
Lemma getNextNoon_steps_one_day_seoul :
  exists d,
    1793588400000 = localNoon seoul d
    /\ evalHost getNextNoon (atClock 1793588400000 (freshWorld seoul 1793577600000))
       = Some (localNoon seoul (d + 1)).
Proof.
  refine (getNextNoon_steps_one_day (freshWorld seoul 1793577600000)
            1793588400000 _ _ _ _).
  - exact seoul_regular.
  - unfold ClockInRange. cbn. lia.
  - unfold ClockInRange. cbn. lia.
  - vm_compute. reflexivity.
Defined.

(** X4. [setDate (getDate () + n)] moves a date by [n] calendar days and
    keeps the local time of day, across the ends of months and years and
    for [n] of either sign: the new time value is the one the zone
    resolves "local time plus [n] days" to, or [NaN] beyond the range. *)
Theorem setDate_getDate_shifts_days (tz : TimeZone) (t n : Z) :
  setDate tz (Some t) (num_add (getDate tz (Some t)) n)
  = TimeClip (UTC tz (LocalTime tz t + n * msPerDay)).
Proof.
  unfold getDate, num_add, setDate. cbv zeta.
  rewrite MakeDay_of_time.
  replace (DateFromTime (LocalTime tz t) + n - DateFromTime (LocalTime tz t))
    with n by lia.
  pose proof (MakeDate_Day (LocalTime tz t)) as HL.
  replace (MakeDate (Day (LocalTime tz t) + n) (TimeWithinDay (LocalTime tz t)))
    with (LocalTime tz t + n * msPerDay)
    by (unfold MakeDate in *; lia).
  reflexivity.
Qed.

(** X5. Where the noon of the current local day is no time value any
    more (past the year 275760), [setHours] makes the date invalid, the
    comparison with it is false, [getNextNoon] returns [NaN], and the
    installer registers the alarm with [NaN] as its first-fire time. *)
Theorem installer_alarm_NaN_beyond_range (w : World) :
  maxTime < Z.abs (localNoon (zone w) (localDay (zone w) (clock w))) ->
  evalHost getNextNoon w = None
  /\ alarmsNamed "dailyCheck" (alarms (execHost onInstalled w))
     = [mkAlarm "dailyCheck" None 1440].
Proof.
  intros Hout.
  assert (Hv : evalHost getNextNoon w = None).
  { rewrite getNextNoon_eval. unfold nextNoonAt, setHours, TimeClip. cbv zeta.
    fold noonTime. fold (localDay (zone w) (clock w)).
    fold (localNoon (zone w) (localDay (zone w) (clock w))).
    destruct (Z.gtb_spec (Z.abs (localNoon (zone w) (localDay (zone w) (clock w))))
                maxTime); [reflexivity | lia]. }
  split; [exact Hv|].
  rewrite onInstalled_exec, Hv. cbv zeta. cbn [alarms].
  unfold alarmsNamed, registerAlarm. rewrite filter_app_singleton.
  cbn [name when periodInMinutes]. rewrite String.eqb_refl.
  rewrite filter_none; [reflexivity|].
  intros a H. apply negb_true_iff in H. exact H.
Qed.

(** In Seoul at the last time value, 13 September 275760, 09:00 local. *)
Lemma installer_alarm_NaN_at_maxTime :
  evalHost getNextNoon (freshWorld seoul maxTime) = None
  /\ alarmsNamed "dailyCheck" (alarms (execHost onInstalled (freshWorld seoul maxTime)))
     = [mkAlarm "dailyCheck" None 1440].
Proof.
  refine (installer_alarm_NaN_beyond_range (freshWorld seoul maxTime) _).
  vm_compute. reflexivity.
Defined.

(** ** The installer and the stores *)

Lemma onInstalled_daily_alarm (w : World) :
  alarmsNamed "dailyCheck" (alarms (execHost onInstalled w))
  = [mkAlarm "dailyCheck" (evalHost getNextNoon w) 1440]
  /\ alarmsNotNamed "dailyCheck" (alarms (execHost onInstalled w))
     = alarmsNotNamed "dailyCheck" (alarms w).
Proof.
  rewrite onInstalled_exec. cbv zeta. cbn [alarms].
  unfold alarmsNamed, alarmsNotNamed, registerAlarm.
  rewrite !filter_app_singleton. cbn [name when periodInMinutes].
  rewrite String.eqb_refl. cbn [negb]. split.
  - rewrite filter_none; [reflexivity|].
    intros a H. apply negb_true_iff in H. exact H.
  - rewrite app_nil_r. apply filter_all. auto.
Qed.

(** X6. After an install event the alarm store holds one alarm named
    "dailyCheck"; its first-fire time is an instant later than the install
    at which the local clock reads 12:00:00.000, and its period is 1440
    minutes. *)
Theorem installer_alarm_is_future_noon (w : World) :
  NoonRegular (zone w) ->
  ClockInRange (clock w) ->
  exists r,
    alarmsNamed "dailyCheck" (alarms (execHost onInstalled w))
    = [mkAlarm "dailyCheck" (Some r) 1440]
    /\ clock w < r
    /\ ReadsNoon (zone w) r.
Proof.
  intros Hreg Hclk.
  destruct (getNextNoon_least w Hreg Hclk) as [d [Hv [Hlt _]]].
  exists (localNoon (zone w) d).
  destruct (onInstalled_daily_alarm w) as [Ha _]. rewrite Hv in Ha.
  repeat split; try assumption.
  all: apply (localNoon_IsLocalNoonOf w Hreg d).
Qed.

Lemma installer_alarm_is_future_noon_seoul :
  exists r,
    alarmsNamed "dailyCheck"
      (alarms (execHost onInstalled (freshWorld seoul 1793592000000)))
    = [mkAlarm "dailyCheck" (Some r) 1440]
    /\ 1793592000000 < r
    /\ ReadsNoon seoul r.
Proof.
  refine (installer_alarm_is_future_noon (freshWorld seoul 1793592000000) _ _).
  - exact seoul_regular.
  - unfold ClockInRange. cbn. lia.
Defined.

Lemma installs_snoc (ts : list Z) (t : Z) (w : World) :
  installs (ts ++ [t]) w = execHost onInstalled (atClock t (installs ts w)).
Proof. unfold installs. rewrite fold_left_app. reflexivity. Qed.

Lemma installs_frame (ts : list Z) (w : World) :
  zone (installs ts w) = zone w
  /\ tabs (installs ts w) = tabs w
  /\ alarmsNotNamed "dailyCheck" (alarms (installs ts w))
     = alarmsNotNamed "dailyCheck" (alarms w).
Proof.
  induction ts as [|t ts IH] using rev_ind; [repeat split|].
  rewrite installs_snoc. destruct IH as [Hz [Ht Ha]].
  destruct (onInstalled_daily_alarm (atClock t (installs ts w))) as [_ Hn].
  rewrite Hn, onInstalled_exec. cbv zeta. cbn [zone tabs atClock alarms].
  auto.
Qed.

(** X7. However often the extension is installed or updated, the alarm
    store holds exactly one alarm named "dailyCheck" afterwards, the one
    the last install computed from its clock reading; the alarms of other
    names are those of before the first install. *)
Theorem installs_one_daily_alarm (w : World) (ts : list Z) (t : Z) :
  alarmsNamed "dailyCheck" (alarms (installs (ts ++ [t]) w))
  = [mkAlarm "dailyCheck" (nextNoonAt (zone w) t) 1440]
  /\ alarmsNotNamed "dailyCheck" (alarms (installs (ts ++ [t]) w))
     = alarmsNotNamed "dailyCheck" (alarms w).
Proof.
  split; [|apply installs_frame].
  rewrite installs_snoc.
  destruct (onInstalled_daily_alarm (atClock t (installs ts w))) as [Ha _].
  rewrite Ha, getNextNoon_eval. cbn [zone clock atClock].
  destruct (installs_frame ts w) as [-> _]. reflexivity.
Qed.

(** X8. The installer is idempotent on the stores: a second run at the
    same clock reading leaves the alarms and the dynamic rules as the
    first run left them. *)
Theorem onInstalled_twice_same_stores (w : World) :
  let once := execHost onInstalled w in
  let twice := execHost onInstalled once in
  alarms twice = alarms once /\ dynamicRules twice = dynamicRules once.
Proof.
  cbv zeta.
  assert (Hn : evalHost getNextNoon (execHost onInstalled w)
               = evalHost getNextNoon w).
  { rewrite !getNextNoon_eval, onInstalled_exec. reflexivity. }
  rewrite (onInstalled_exec (execHost onInstalled w)), Hn.
  rewrite (onInstalled_exec w). cbv zeta. cbn [alarms dynamicRules].
  split.
  - unfold registerAlarm. cbn [when periodInMinutes].
    rewrite filter_app_singleton.
    cbn [name]. rewrite String.eqb_refl. cbn [negb].
    rewrite app_nil_r, filter_all; auto.
  - unfold rulesWithoutId. rewrite filter_app_singleton. cbn.
    rewrite app_nil_r, filter_all; auto.
Qed.

Lemma distinct_app_singleton (l : list Z) (x : Z) :
  distinct l = true -> existsb (Z.eqb x) l = false -> distinct (l ++ [x]) = true.
Proof.
  induction l as [|y l IH]; cbn [app distinct existsb]; [reflexivity|].
  rewrite andb_true_iff, negb_true_iff, orb_false_iff.
  intros [Hy Hd] [Hxy Hx]. rewrite IH by assumption.
  rewrite existsb_app. cbn [existsb]. rewrite Hy, orb_false_r.
  rewrite Z.eqb_sym, Hxy. reflexivity.
Qed.

Lemma existsb_ids_filter (x : Z) (q : Rule -> bool) (rs : list Rule) :
  existsb (Z.eqb x) (map id rs) = false ->
  existsb (Z.eqb x) (map id (filter q rs)) = false.
Proof.
  induction rs as [|r rs IH]; cbn [map existsb filter]; [reflexivity|].
  rewrite orb_false_iff. intros [Hr Hrs].
  destruct (q r); cbn [map existsb]; [rewrite Hr|]; auto.
Qed.

Lemma distinct_ids_filter (q : Rule -> bool) (rs : list Rule) :
  distinct (map id rs) = true -> distinct (map id (filter q rs)) = true.
Proof.
  induction rs as [|r rs IH]; cbn [map distinct filter]; [reflexivity|].
  rewrite andb_true_iff, negb_true_iff. intros [Hr Hd].
  destruct (q r); [|auto].
  cbn [map distinct]. rewrite IH, existsb_ids_filter by assumption. reflexivity.
Qed.

(** X9. The installer keeps the identifiers of the dynamic rules unique:
    if no two stored rules share an identifier before it runs, none do
    after it. *)
Theorem installer_keeps_ids_distinct (w : World) :
  distinct (map id (dynamicRules w)) = true ->
  distinct (map id (dynamicRules (execHost onInstalled w))) = true.
Proof.
  intros Hd. rewrite onInstalled_exec. cbv zeta. cbn [dynamicRules].
  rewrite map_app. cbn [map id headerRule].
  apply distinct_app_singleton.
  - apply distinct_ids_filter, Hd.
  - apply rulesWithoutId_ids.
Qed.

(** A store that holds an older rule 1 and a rule 7. *)
Lemma installer_keeps_ids_distinct_example :
  distinct
    (map id
       (dynamicRules
          (execHost onInstalled
             (mkWorld 1793592000000 seoul []
                [mkRule 1 1 (mkRuleAction block []) (mkRuleCondition "old" []);
                 mkRule 7 1 (mkRuleAction block []) (mkRuleCondition "x" [])]
                [] [])))) = true.
Proof.
  refine (installer_keeps_ids_distinct _ _). reflexivity.
Defined.

(** X10. The host never refuses the rule update of the installer for a
    clash of identifiers, whatever rules are stored, rule 1 or several
    rules 1 among them: the update is accepted, the other rules stay in
    their order and the header rule is added after them. *)
Theorem installer_update_accepted (w : World) :
  updateRules ruleUpdate (dynamicRules w)
  = Some (dynamicRules (execHost onInstalled w))
  /\ dynamicRules (execHost onInstalled w)
     = rulesWithoutId RULE_ID (dynamicRules w) ++ [headerRule].
Proof.
  rewrite onInstalled_exec. cbv zeta. cbn [dynamicRules].
  split; [apply updateRules_ruleUpdate | reflexivity].
Qed.

(** ** The two listeners together *)

(** X11. The installer and the alarm handler work on different stores and
    commute: the alarms, the rules and the tabs are the same whether an
    alarm fires before an install event or after it.  In particular the
    installer opens no tab and the handler changes no alarm and no rule. *)
Theorem listeners_commute (w : World) (alarm : Alarm) :
  let a := execHost (onAlarm alarm) (execHost onInstalled w) in
  let b := execHost onInstalled (execHost (onAlarm alarm) w) in
  alarms a = alarms b
  /\ dynamicRules a = dynamicRules b
  /\ tabs a = tabs b
  /\ tabs (execHost onInstalled w) = tabs w
  /\ alarms (execHost (onAlarm alarm) w) = alarms w
  /\ dynamicRules (execHost (onAlarm alarm) w) = dynamicRules w.
Proof.
  cbv zeta.
  assert (Hn : evalHost getNextNoon (execHost (onAlarm alarm) w)
               = evalHost getNextNoon w).
  { rewrite !getNextNoon_eval, onAlarm_exec.
    destruct (String.eqb (name alarm) "dailyCheck"); reflexivity. }
  rewrite (onInstalled_exec (execHost (onAlarm alarm) w)), Hn.
  rewrite (onAlarm_exec (execHost onInstalled w)), (onAlarm_exec w).
  rewrite onInstalled_exec. cbv zeta.
  destruct (String.eqb (name alarm) "dailyCheck");
    cbn [alarms dynamicRules tabs]; repeat split.
Qed.

Lemma fires_snoc (l : list Alarm) (a : Alarm) (w : World) :
  fires (l ++ [a]) w = execHost (onAlarm a) (fires l w).
Proof. unfold fires. rewrite fold_left_app. reflexivity. Qed.

(** X12. Over any sequence of alarm firings the handler opens one
    dashboard tab for each alarm named "dailyCheck" and none for the
    others: the tabs opened are as many copies of
    "dashboard.html?auto=true" as the sequence has alarms of that name,
    and the alarms and rules stay as they were. *)
Theorem fires_open_one_tab_each (l : list Alarm) (w : World) :
  tabs (fires l w)
  = tabs w ++ repeat "dashboard.html?auto=true"%string
                (List.length (alarmsNamed "dailyCheck" l))
  /\ alarms (fires l w) = alarms w
  /\ dynamicRules (fires l w) = dynamicRules w.
Proof.
  induction l as [|a l IH] using rev_ind.
  - cbn. rewrite app_nil_r. repeat split.
  - destruct IH as [Ht [Ha Hr]]. rewrite fires_snoc, onAlarm_exec.
    unfold alarmsNamed in *. rewrite filter_app_singleton.
    destruct (String.eqb (name a) "dailyCheck"); cbn [tabs alarms dynamicRules].
    + rewrite Ht, length_app, repeat_app, app_assoc. repeat split; assumption.
    + rewrite app_nil_r. repeat split; assumption.
Qed.

(** ** The schedule of the alarm *)

Lemma ReadsNoon_fixedZone_shift (k r n : Z) :
  ReadsNoon (fixedZone k) r -> ReadsNoon (fixedZone k) (r + n * msPerDay).
Proof.
  unfold ReadsNoon, LocalTime, HourFromTime, MinFromTime, SecFromTime,
    msFromTime, msPerDay, msPerHour, msPerMinute, msPerSecond.
  cbn [fixedZone offsetAt]. intros [Hh [Hm [Hs Hms]]].
  repeat split; zdiv.
Qed.

(** X13. In a zone with a fixed offset the registered alarm keeps to noon:
    the first-fire time and every instant a whole number of its periods
    (1440 minutes) away from it are instants at which the local clock
    reads 12:00:00.000. *)
Theorem daily_alarm_period_keeps_noon (w : World) (k : Z) :
  zone w = fixedZone k ->
  - msPerDay <= k <= msPerDay ->
  ClockInRange (clock w) ->
  exists r,
    alarmsNamed "dailyCheck" (alarms (execHost onInstalled w))
    = [mkAlarm "dailyCheck" (Some r) 1440]
    /\ Forall (fun a =>
                 forall n,
                   ReadsNoon (fixedZone k) (r + n * (alarmPeriod a * msPerMinute)))
         (alarmsNamed "dailyCheck" (alarms (execHost onInstalled w))).
Proof.
  intros Hz Hk Hclk.
  assert (Hreg : NoonRegular (zone w))
    by (rewrite Hz; apply fixedZone_regular, Hk).
  destruct (getNextNoon_least w Hreg Hclk) as [d [Hv _]].
  destruct (onInstalled_daily_alarm w) as [Hs _]. rewrite Hv in Hs.
  exists (localNoon (zone w) d). rewrite Hs. split; [reflexivity|].
  constructor; [|constructor]. intros n. cbn [alarmPeriod].
  change (1440 * msPerMinute) with msPerDay.
  apply ReadsNoon_fixedZone_shift. rewrite <- Hz.
  apply (localNoon_IsLocalNoonOf w Hreg d).
Qed.

Lemma daily_alarm_period_keeps_noon_seoul :
  exists r,
    alarmsNamed "dailyCheck"
      (alarms (execHost onInstalled (freshWorld seoul 1793592000000)))
    = [mkAlarm "dailyCheck" (Some r) 1440]
    /\ Forall (fun a =>
                 forall n, ReadsNoon seoul (r + n * (alarmPeriod a * msPerMinute)))
         (alarmsNamed "dailyCheck"
            (alarms (execHost onInstalled (freshWorld seoul 1793592000000)))).
Proof.
  refine (daily_alarm_period_keeps_noon (freshWorld seoul 1793592000000)
            (9 * msPerHour) _ _ _).
  - reflexivity.
  - unfold msPerDay, msPerHour. lia.
  - unfold ClockInRange. cbn. lia.
Defined.

(** X14. Across a clock change the period does not keep to noon: when the
    zone changes its offset from [a] to [b] between the first-fire time
    and a later instant of the schedule, the local clock reads noon
    shifted by [b - a] at that instant (11:00 after the clocks were put
    back an hour). *)
Theorem daily_alarm_period_drifts (w : World) (T a b r n : Z) :
  zone w = changeZone T a b ->
  NoonRegular (zone w) ->
  ClockInRange (clock w) ->
  alarmsNamed "dailyCheck" (alarms (execHost onInstalled w))
  = [mkAlarm "dailyCheck" (Some r) 1440] ->
  r < T <= r + n * (1440 * msPerMinute) ->
  wallClock (zone w) (r + n * (1440 * msPerMinute))
  = (noonTime + (b - a)) mod msPerDay.
Proof.
  intros Hz Hreg Hclk Hs [Hlo Hhi].
  destruct (getNextNoon_least w Hreg Hclk) as [d [Hv _]].
  destruct (onInstalled_daily_alarm w) as [Hs' _].
  rewrite Hs', Hv in Hs. injection Hs as Hr.
  pose proof (noon_exists _ Hreg d) as Hex. rewrite Hr in Hex.
  rewrite Hz in *. unfold wallClock, LocalTime, TimeWithinDay, MakeDate in *.
  cbn [changeZone offsetAt] in *.
  destruct (Z.ltb_spec r T); [|lia].
  destruct (Z.ltb_spec (r + n * (1440 * msPerMinute)) T); [lia|].
  rewrite noonTime_eq in *. unfold msPerDay, msPerMinute in *. zdiv.
Qed.

(** New York, installed at 09:00 on 31 October 2026: first fire at 12:00
    that day, second fire at 11:00 on 1 November. *)
Lemma daily_alarm_period_drifts_newYork :
  wallClock newYork2026 (1793462400000 + 1 * (1440 * msPerMinute))
  = 11 * msPerHour.
Proof.
  refine (daily_alarm_period_drifts (freshWorld newYork2026 1793451600000)
            fallBack2026 (-4 * msPerHour) (-5 * msPerHour) 1793462400000 1
            _ _ _ _ _).
  - reflexivity.
  - exact newYork2026_regular.
  - unfold ClockInRange. cbn. lia.
  - vm_compute. reflexivity.
  - unfold fallBack2026, msPerMinute. lia.
Defined.
